(** * ecw: a thin wrapper around CMake

    A shallow embedding of the two scripts of the repository, [ecw.py]
    (module [Ecw]) and the older [main.py] (module [Main]), and the
    properties of the commands they assemble and run.

    What the scripts do to the outside world is made explicit: the
    filesystem is a finite map from resolved paths to node kinds, and every
    observable action (a line echoed, a directory tree removed, a child
    process spawned) is appended to a chronological trace. *)

From Stdlib Require Import Ascii.
From stdpp Require Import base decidable option list strings gmap.

Local Open Scope string_scope.
Local Open Scope list_scope.
Local Open Scope stdpp_scope.

(** ** Paths

    typer resolves both directory options ([resolve_path=True]), so the code
    only ever sees absolute, normalised [pathlib.Path] values. Such a path is
    the root followed by its components; [[]] is the root itself. Two paths
    are equal when their components are. *)

Definition Path : Type := list string.

(** [str(path)]: ["/"] for the root, ["/a/b"] for the components [a], [b]. *)
Definition Path_str (p : Path) : string :=
  match p with
  | [] => "/"
  | _ => String.concat "" ((λ c, "/" +:+ c) <$> p)
  end.

(** [path.parents]: pathlib's sequence of logical ancestors. It has one item
    per component, item [idx] being the path without its last [idx + 1]
    components, so the nearest ancestor comes first and the root last. *)
Definition parents (p : Path) : list Path :=
  (λ idx, take (length p - idx - 1) p) <$> seq 0 (length p).

(** The spec's wording of the guard: the build root is an ancestor of the
    source root when the source root lies strictly underneath it. *)
Definition ancestor_of (b s : Path) : Prop :=
  ∃ rest, rest ≠ [] ∧ s = b ++ rest.

(** ** Filesystem *)

Inductive NodeKind := Dir | File.

Global Instance NodeKind_eq_dec : EqDecision NodeKind.
Proof. solve_decision. Defined.

Abbreviation FS := (gmap Path NodeKind).

(** [os.path.isdir(p)] *)
Definition isdir (fs : FS) (p : Path) : bool :=
  bool_decide (fs !! p = Some Dir).

(** [shutil.rmtree(p)]: [p] and everything underneath it is gone. The
    filesystem has no permissions and no symbolic links, so a removal does
    not fail half way. *)
Definition rmtree (p : Path) (fs : FS) : FS :=
  filter (λ e, ¬ p `prefix_of` e.1) fs.

(** ** The world and the effects of the scripts *)

(** Where a stream of a child process goes: left alone (inherited from the
    wrapper) or opened on [os.devnull]. *)
Inductive Sink := Inherit | DevNull.

(** A child process that was spawned and waited for. *)
Record Child := mkChild {
  argv : list string;
  stdout : Sink;
  stderr : Sink;
  returncode : Z
}.

Inductive Event :=
| EvEcho (msg : string)       (* typer.echo(msg) *)
| EvEchoErr (msg : string)    (* typer.echo(msg, err=True) *)
| EvRmtree (p : Path)         (* shutil.rmtree(p) *)
| EvSpawn (c : Child).        (* subprocess.call(argv, ...) *)

Record World := mkWorld { fs : FS; trace : list Event }.

(** A command function either returns or raises [typer.Exit(code)]. *)
Inductive Result (A : Type) :=
| Ok (a : A)
| Exit (code : Z).
Arguments Ok {A} a.
Arguments Exit {A} code.

Definition M (A : Type) : Type := World → Result A * World.

Definition ret {A} (a : A) : M A := λ w, (Ok a, w).

(** Sequencing: a raised [typer.Exit] skips the rest. *)
Definition bind {A B} (m : M A) (k : A → M B) : M B :=
  λ w, match m w with
       | (Ok a, w') => k a w'
       | (Exit code, w') => (Exit code, w')
       end.

Notation "'let*' x ':=' m 'in' k" := (bind m (λ x, k))
  (at level 10, x name, m at level 100, k at level 200).
Notation "m1 ;; m2" := (bind m1 (λ _ : unit, m2))
  (at level 100, m2 at level 200, right associativity).

Definition log (e : Event) : M unit :=
  λ w, (Ok (), {| fs := fs w; trace := trace w ++ [e] |}).

Definition typer_echo (msg : string) : M unit := log (EvEcho msg).
Definition typer_echo_err (msg : string) : M unit := log (EvEchoErr msg).

(** [raise typer.Exit(code)] *)
Definition raise_Exit {A} (code : Z) : M A := λ w, (Exit code, w).

Definition os_path_isdir (p : Path) : M bool :=
  λ w, (Ok (isdir (fs w) p), w).

Definition shutil_rmtree (p : Path) : M unit :=
  λ w, (Ok (), {| fs := rmtree p (fs w); trace := trace w ++ [EvRmtree p] |}).

(** The exit status of the invocation: typer's runner hands the code of a
    raised [typer.Exit] to the process-exit mechanism, of which the operating
    system keeps the low eight bits (a child killed by signal 15 returns -15,
    and the invocation ends with 241); it exits with 0 when the command
    function returns. *)
Definition exit_code {A} (r : Result A) : Z :=
  match r with
  | Ok _ => 0
  | Exit code => (code `mod` 256)%Z
  end.

(** An invocation from the command line. typer checks the arguments before
    it calls the command function: it either refuses them (a usage error on
    the error stream, exit status 2, the command function is not called) or
    calls the function, which gives a result and a world. *)
Inductive Invocation :=
| Refused
| Called (r : Result unit * World).

(** The external tool is not part of the repository: it is a parameter that
    maps the argument vector and the filesystem it finds to the filesystem it
    leaves and its return code. The tool is taken to be installed, so that
    spawning it does not fail. *)
Definition Tool : Type := list string → FS → FS * Z.

(** [subprocess.call(args, stdout=..., stderr=...)]: runs the child, waits
    for it and returns its return code. A stream that the caller does not
    name is inherited. *)
Definition subprocess_call (tool : Tool) (args : list string)
    (out err : Sink) : M Z :=
  λ w, let r := tool args (fs w) in
       (Ok r.2, {| fs := r.1;
                   trace := trace w ++ [EvSpawn (mkChild args out err r.2)] |}).

(** The events that a run added to the trace. *)
Definition events_since (w w' : World) : list Event :=
  drop (length (trace w)) (trace w').


(** The child processes among some events, in order, and the trees removed. *)
Definition spawned (es : list Event) : list Child :=
  omap (λ e, match e with EvSpawn c => Some c | _ => None end) es.

(** The child processes of an invocation that started in the world [w]. *)
Definition commands_run (w : World) (i : Invocation) : list Child :=
  match i with
  | Refused => []
  | Called r => spawned (events_since w r.2)
  end.

Definition removed (es : list Event) : list Path :=
  omap (λ e, match e with EvRmtree p => Some p | _ => None end) es.

(** ** ecw.py *)

Module Ecw.

Inductive BuildMode := debug | release | release_with_debug | min_size_release.

(** [BuildMode] is a [str]-backed enumeration; this is each member's value. *)
Definition value (m : BuildMode) : string :=
  match m with
  | debug => "d"
  | release => "r"
  | release_with_debug => "w"
  | min_size_release => "s"
  end.

(** [==] on members of a [str] enumeration compares the values. *)
Definition BuildMode_eqb (a b : BuildMode) : bool :=
  String.eqb (value a) (value b).

(** [if mode:] for [mode : Optional[BuildMode]]: [None] is false, and a member
    is as true as its value, a non-empty string. *)
Definition truthy (mode : option BuildMode) : bool :=
  match mode with
  | None => false
  | Some m => negb (String.eqb (value m) "")
  end.

Definition to_param (self : BuildMode) : string :=
  if BuildMode_eqb self release then "Release"
  else if BuildMode_eqb self release_with_debug then "RelWithDebInfo"
  else if BuildMode_eqb self min_size_release then "MinSizeRel"
  else "Debug".

Section WithTool.
Variable tool : Tool.

Definition call (command : list string) (quiet : bool) : M unit :=
  typer_echo ("> " +:+ String.concat " " command) ;;
  let* result := (if quiet then subprocess_call tool command DevNull Inherit
                  else subprocess_call tool command Inherit Inherit) in
  if bool_decide (result ≠ 0%Z) then raise_Exit result else ret ().

Definition config (cmake_params : option (list string))
    (source_dir build_dir : Path) (mode : option BuildMode)
    (export_cc quiet reset : bool) : M unit :=
  (* [run] is the body after the reset block, which the early [return] of
     that block skips. *)
  let run : M unit :=
    let command := ["cmake"; "-S"; Path_str source_dir; "-B"; Path_str build_dir] in
    let command :=
      match mode with
      | Some m =>
          if truthy mode then command ++ ["-DCMAKE_BUILD_TYPE=" +:+ to_param m]
          else command
      | None => command
      end in
    let command :=
      if export_cc then command ++ ["-DCMAKE_EXPORT_COMPILE_COMMANDS=1"]
      else command in
    let command :=
      match cmake_params with
      | Some params =>
          if bool_decide (params ≠ []) then command ++ params else command
      | None => command
      end in
    call command quiet in
  if reset then
    if bool_decide (build_dir ∈ parents source_dir) then
      typer_echo_err "Error: Build root contains source root; cannot remove."
    else
      (let* isd := os_path_isdir build_dir in
       if isd then shutil_rmtree build_dir else ret ()) ;;
      run
  else run.

Definition build (target : string) (build_dir : Path) : M unit :=
  let command := ["cmake"; "--build"; Path_str build_dir] in
  let command :=
    if bool_decide (target ≠ "all") then command ++ ["-t"; target]
    else command in
  call command false.

(** typer's check of [--source-dir], declared with [exists=True] and
    [file_okay=False]: the path must be there and must not be a file. The
    filesystem has no permissions, so what is there can be read and written. *)
Definition source_dir_ok (fs : FS) (p : Path) : bool :=
  bool_decide (is_Some (fs !! p)) && negb (bool_decide (fs !! p = Some File)).

(** typer's check of [--build-dir], declared with [file_okay=False] and
    without [exists]: the path may be missing, but must not be a file. *)
Definition build_dir_ok (fs : FS) (p : Path) : bool :=
  negb (bool_decide (fs !! p = Some File)).

(** What the command line gives for [config]: the positional parameters and
    the options, each absent or present. Paths are given resolved (the
    filesystem has no symbolic links), and the letter of [--mode] is given as
    the member it names: typer refuses any other letter. *)
Record ConfigArgs := mkConfigArgs {
  arg_cmake_params : option (list string);
  arg_source_dir : option Path;     (* --source-dir, -S *)
  arg_build_dir : option Path;      (* --build-dir, -B *)
  arg_mode : option BuildMode;      (* --mode, -M *)
  arg_export_cc : bool;             (* --export-cc, -E *)
  arg_quiet : bool;                 (* --quiet, -q *)
  arg_reset : bool                  (* --reset, -R *)
}.

(** The [config] command as [app()] runs it in the working directory [cwd]:
    an option that is absent takes the default of its [typer.Option]
    declaration, ["."] for the source root, ["build"] for the build root and
    [BuildMode.debug] for the mode (without symbolic links ["build"]
    resolves to [build] inside [cwd]). The two directories, given or default,
    are checked as declared, and [config] is called only if both pass. *)
Definition app_config (cwd : Path) (a : ConfigArgs) (w : World) : Invocation :=
  let source_dir := default cwd (arg_source_dir a) in
  let build_dir := default (cwd ++ ["build"]) (arg_build_dir a) in
  if source_dir_ok (fs w) source_dir && build_dir_ok (fs w) build_dir
  then Called (config (arg_cmake_params a) source_dir build_dir
                      (Some (default debug (arg_mode a)))
                      (arg_export_cc a) (arg_quiet a) (arg_reset a) w)
  else Refused.



End WithTool.
End Ecw.

(** ** main.py, the older script *)

Module Main.
Section WithTool.
Variable tool : Tool.

Definition call (command : list string) : M unit :=
  typer_echo ("> " +:+ String.concat " " command) ;;
  let* _ := subprocess_call tool command Inherit Inherit in
  ret ().

Definition config (cmake_params : option (list string))
    (source_dir build_dir : Path) : M unit :=
  let command := ["cmake"; "-S"; Path_str source_dir; "-B"; Path_str build_dir] in
  let command :=
    match cmake_params with
    | Some params =>
        if bool_decide (params ≠ []) then command ++ params else command
    | None => command
    end in
  call command.

Definition build (target : string) (build_dir : Path) : M unit :=
  let command := ["cmake"; "--build"; Path_str build_dir] in
  let command :=
    if bool_decide (target ≠ "all") then command ++ ["-t"; target]
    else command in
  call command.

End WithTool.
End Main.

(** ** The spec's description of the commands *)

(** A build-type token sets [CMAKE_BUILD_TYPE]. *)
Definition is_build_type_token (tok : string) : bool :=
  String.prefix "-DCMAKE_BUILD_TYPE=" tok.

(** The fixed mapping from build modes to the tool's tokens. *)
Definition mode_token (m : Ecw.BuildMode) : string :=
  match m with
  | Ecw.debug => "Debug"
  | Ecw.release => "Release"
  | Ecw.release_with_debug => "RelWithDebInfo"
  | Ecw.min_size_release => "MinSizeRel"
  end.

(** The tokens that the translator synthesizes for a configuration: the verb
    with the two paths, the build-type token if a mode is given, and the
    export-compile-commands token if requested. *)
Definition synthesized (source_dir build_dir : Path)
    (mode : option Ecw.BuildMode) (export_cc : bool) : list string :=
  ["cmake"; "-S"; Path_str source_dir; "-B"; Path_str build_dir]
  ++ match mode with
     | Some m => ["-DCMAKE_BUILD_TYPE=" +:+ mode_token m]
     | None => []
     end
  ++ (if export_cc then ["-DCMAKE_EXPORT_COMPILE_COMMANDS=1"] else []).

(** The configure command: the synthesized tokens, then the passthrough
    parameters as they were given. *)
Definition configure_command (cmake_params : option (list string))
    (source_dir build_dir : Path) (mode : option Ecw.BuildMode)
    (export_cc : bool) : list string :=
  synthesized source_dir build_dir mode export_cc ++ default [] cmake_params.

(** The line that [call] echoes before it runs a command. *)
Definition echo_line (command : list string) : string :=
  "> " +:+ String.concat " " command.

(** What becomes of an invocation whose child returned [rc]. *)
Definition outcome (rc : Z) : Result unit :=
  if bool_decide (rc ≠ 0%Z) then Exit rc else Ok ().

Definition unsafe_reset_message : string :=
  "Error: Build root contains source root; cannot remove.".

(** [config] stops before it assembles a command when a reset is asked for
    and the build root is among the parents of the source root. *)
Definition config_aborts (reset : bool) (source_dir build_dir : Path) : bool :=
  reset && bool_decide (build_dir ∈ parents source_dir).

(** The world in which a configuration that goes ahead runs its command: a
    reset has removed the build root if it was a directory. *)
Definition after_reset (reset : bool) (build_dir : Path) (w : World) : World :=
  if reset && isdir (fs w) build_dir
  then mkWorld (rmtree build_dir (fs w)) (trace w ++ [EvRmtree build_dir])
  else w.

(** The events of that reset. *)
Definition reset_events (reset : bool) (build_dir : Path) (w : World)
    : list Event :=
  if reset && isdir (fs w) build_dir then [EvRmtree build_dir] else [].

(** The child that runs [command] in the world [w]. *)
Definition child_of (tool : Tool) (command : list string) (quiet : bool)
    (w : World) : Child :=
  mkChild command (if quiet then DevNull else Inherit) Inherit
          (tool command (fs w)).2.

(** The build-type tokens among some tokens. *)
Definition build_type_tokens (toks : list string) : list string :=
  filter (λ tok, is_build_type_token tok = true) toks.

(** ** Three sentences of the spec, as it words them *)

(** C2 as the spec words it, for invocations from the command line: when no
    [--mode] is given, no command that is run holds a build-type token. *)
Definition mode_absent_omits_build_type : Prop :=
  ∀ (tool : Tool) (cwd : Path) (a : Ecw.ConfigArgs) (w : World)
    (c : Child) (tok : string),
    Ecw.arg_mode a = None →
    c ∈ commands_run w (Ecw.app_config tool cwd a w) →
    tok ∈ argv c →
    is_build_type_token tok = false.

(** C4 as the spec words it: the command that [config] runs with the mode
    [m] holds exactly one build-type token, that of [m]. *)
Definition mode_gives_exactly_one_build_type : Prop :=
  ∀ (tool : Tool) params (s b : Path) (m : Ecw.BuildMode) (e q r : bool)
    (w : World) (c : Child),
    c ∈ spawned (events_since w
                   (Ecw.config tool params s b (Some m) e q r w).2) →
    build_type_tokens (argv c) = ["-DCMAKE_BUILD_TYPE=" +:+ mode_token m].

(** C8 as the spec words it: when the reset-safety check fails, the
    invocation ends with an exit status other than 0. *)
Definition unsafe_reset_exits_nonzero : Prop :=
  ∀ (tool : Tool) params (s b : Path) mode (e q : bool) (w : World),
    ancestor_of b s →
    exit_code (Ecw.config tool params s b mode e q true w).1 ≠ 0%Z.

(** ** Sample inputs *)

(** A tool that leaves the filesystem alone and ends with the given status. *)
Definition tool_exiting (rc : Z) : Tool := λ _ fs, (fs, rc).

(** A checkout at [/repo] with a source directory and an earlier build. *)
Definition repo_fs : FS :=
  list_to_map [([], Dir); (["repo"], Dir); (["repo"; "src"], Dir);
               (["repo"; "src"; "main.c"], File);
               (["repo"; "build"], Dir);
               (["repo"; "build"; "CMakeCache.txt"], File)].

Definition repo_world : World := mkWorld repo_fs [].

(** [config] with nothing but the subcommand on the command line. *)
Definition bare_args : Ecw.ConfigArgs :=
  Ecw.mkConfigArgs None None None None false false false.

(** ** More ways to read a trace *)

(** The lines written to standard output, and those written to standard
    error. *)
Definition echoed (es : list Event) : list string :=
  omap (λ e, match e with EvEcho msg => Some msg | _ => None end) es.

Definition reported (es : list Event) : list string :=
  omap (λ e, match e with EvEchoErr msg => Some msg | _ => None end) es.


(** ** Paths and the filesystem *)

Section PathFacts.
Implicit Types p q b s : Path.

(** [b in s.parents] says that [b] is an ancestor of [s] as the spec words
    it: [s] lies strictly underneath [b]. *)
Lemma parents_ancestor b s : b ∈ parents s ↔ ancestor_of b s.
Proof.
  unfold parents, ancestor_of. rewrite list_elem_of_fmap. split.
  - intros (idx & -> & Hidx). apply elem_of_seq in Hidx.
    exists (drop (length s - idx - 1) s). split.
    + intros Hnil. apply (f_equal length) in Hnil.
      rewrite length_drop in Hnil. simpl in Hnil. lia.
    + by rewrite take_drop.
  - intros (rest & Hrest & ->).
    exists (length rest - 1). split.
    + destruct rest as [|x rest]; [done|].
      rewrite length_app.
      replace (length b + length (x :: rest) - (length (x :: rest) - 1) - 1)
        with (length b) by (simpl; lia).
      by rewrite take_app_length.
    + apply elem_of_seq. rewrite length_app.
      destruct rest; [done|]. simpl. lia.
Qed.

Lemma not_own_parent p : p ∉ parents p.
Proof.
  rewrite parents_ancestor. intros (rest & Hrest & Heq).
  apply (f_equal length) in Heq. rewrite length_app in Heq.
  destruct rest; [done|]. simpl in Heq. lia.
Qed.

Lemma ancestor_inv b s : ancestor_of b s → b ≠ s ∧ b `prefix_of` s.
Proof.
  intros Hanc. split.
  - intros ->. by apply (not_own_parent s), parents_ancestor.
  - destruct Hanc as (rest & _ & ->). by exists rest.
Qed.

(** A resolved path prints with a leading slash. *)
Lemma Path_str_slash p : ∃ rest, Path_str p = String "/"%char rest.
Proof.
  destruct p as [|c [|c' p]]; simpl; eauto.
Qed.

Lemma Path_str_not_build_type p : is_build_type_token (Path_str p) = false.
Proof. by destruct (Path_str_slash p) as [rest ->]. Qed.

Lemma rmtree_under (fs : FS) p q : p `prefix_of` q → rmtree p fs !! q = None.
Proof.
  intros Hpq. unfold rmtree. apply map_lookup_filter_None.
  destruct (fs !! q) as [k|] eqn:Hq; [right|by left].
  intros k' _ Hnot. by apply Hnot.
Qed.

Lemma rmtree_outside (fs : FS) p q :
  ¬ p `prefix_of` q → rmtree p fs !! q = fs !! q.
Proof.
  intros Hpq. unfold rmtree. rewrite map_lookup_filter.
  destruct (fs !! q) as [k|]; simpl; [|done].
  by rewrite option_guard_True.
Qed.

End PathFacts.

Lemma events_since_app w f es :
  events_since w (mkWorld f (trace w ++ es)) = es.
Proof. unfold events_since. simpl. by rewrite drop_app_length. Qed.

Lemma outcome_cases (n : Z) :
  (n ≠ 0%Z →
   outcome n = Exit n ∧ ((0 ≤ n < 256)%Z → exit_code (outcome n) = n))
  ∧ (n = 0%Z → outcome n = Ok ()).
Proof.
  unfold outcome. split; intros Hn.
  - rewrite bool_decide_true by done. split; [done|].
    intros Hrange. simpl. by apply Z.mod_small.
  - by rewrite bool_decide_false by (by intros []).
Qed.

(** The exit status after a child that returned [n]: its low eight bits. *)
Lemma exit_code_outcome (n : Z) : exit_code (outcome n) = (n `mod` 256)%Z.
Proof.
  unfold outcome. case_bool_decide as Hn; simpl; [done|].
  destruct (decide (n = 0%Z)) as [->|]; [done|]. by destruct Hn.
Qed.

(** ** What a run of each operation does *)

Section Runs.
Variable tool : Tool.

Lemma to_param_mode_token m : Ecw.to_param m = mode_token m.
Proof. by destruct m. Qed.

Lemma truthy_Some m : Ecw.truthy (Some m) = true.
Proof. by destruct m. Qed.

Lemma ecw_call_run command quiet w :
  Ecw.call tool command quiet w =
  (outcome (tool command (fs w)).2,
   mkWorld (tool command (fs w)).1
     (trace w ++ [EvEcho (echo_line command);
                  EvSpawn (mkChild command (if quiet then DevNull else Inherit)
                                   Inherit (tool command (fs w)).2)])).
Proof.
  unfold Ecw.call, bind, typer_echo, log, subprocess_call, raise_Exit, ret,
    outcome, echo_line.
  destruct quiet; simpl; rewrite <- app_assoc; by case_bool_decide.
Qed.

Lemma main_call_run command w :
  Main.call tool command w =
  (Ok (),
   mkWorld (tool command (fs w)).1
     (trace w ++ [EvEcho (echo_line command);
                  EvSpawn (mkChild command Inherit Inherit
                                   (tool command (fs w)).2)])).
Proof.
  unfold Main.call, bind, typer_echo, log, subprocess_call, ret, echo_line.
  simpl. by rewrite <- app_assoc.
Qed.

(** The command that [config] builds up step by step is the spec's. *)
Lemma ecw_config_proceeds params s b mode e q r w :
  config_aborts r s b = false →
  Ecw.config tool params s b mode e q r w =
  Ecw.call tool (configure_command params s b mode e) q (after_reset r b w).
Proof.
  unfold config_aborts, after_reset, Ecw.config. intros Hgo.
  assert (Hcmd :
    (let command := ["cmake"; "-S"; Path_str s; "-B"; Path_str b] in
     let command :=
       match mode with
       | Some m =>
           if Ecw.truthy mode
           then command ++ ["-DCMAKE_BUILD_TYPE=" +:+ Ecw.to_param m]
           else command
       | None => command
       end in
     let command :=
       if e then command ++ ["-DCMAKE_EXPORT_COMPILE_COMMANDS=1"]
       else command in
     match params with
     | Some ps => if bool_decide (ps ≠ []) then command ++ ps else command
     | None => command
     end) = configure_command params s b mode e).
  { unfold configure_command, synthesized.
    destruct mode as [m|]; [rewrite truthy_Some, to_param_mode_token|];
      destruct e; destruct params as [[|x ps]|]; simpl; try done;
      by rewrite ?app_nil_r. }
  cbv zeta in Hcmd. rewrite Hcmd. clear Hcmd.
  destruct r; simpl in *; [|by destruct w].
  rewrite Hgo. unfold bind at 1. unfold bind at 1, os_path_isdir; simpl.
  destruct (isdir (fs w) b); simpl; [done|]. by destruct w.
Qed.

Lemma ecw_config_stops params s b mode e q w :
  b ∈ parents s →
  Ecw.config tool params s b mode e q true w =
  (Ok (), mkWorld (fs w) (trace w ++ [EvEchoErr unsafe_reset_message])).
Proof.
  intros Hin. unfold Ecw.config. by rewrite bool_decide_true.
Qed.

Lemma main_config_run params s b w :
  Main.config tool params s b w =
  Main.call tool (configure_command params s b None false) w.
Proof.
  unfold Main.config, configure_command, synthesized.
  destruct params as [[|x ps]|]; simpl; by rewrite ?app_nil_r.
Qed.

Lemma after_reset_trace r b w :
  trace (after_reset r b w) = trace w ++ reset_events r b w.
Proof.
  unfold after_reset, reset_events.
  destruct (r && isdir (fs w) b); simpl; by rewrite ?app_nil_r.
Qed.

(** Everything that a run of [config] adds to the trace. *)
Lemma ecw_config_events params s b mode e q r w :
  events_since w (Ecw.config tool params s b mode e q r w).2 =
  if config_aborts r s b then [EvEchoErr unsafe_reset_message]
  else
    let cmd := configure_command params s b mode e in
    reset_events r b w
    ++ [EvEcho (echo_line cmd); EvSpawn (child_of tool cmd q (after_reset r b w))].
Proof.
  destruct (config_aborts r s b) eqn:Hab.
  - unfold config_aborts in Hab. apply andb_prop in Hab as [-> Hin].
    apply bool_decide_eq_true in Hin.
    rewrite ecw_config_stops by done. simpl. apply events_since_app.
  - rewrite ecw_config_proceeds, ecw_call_run by done. cbv zeta. simpl.
    rewrite after_reset_trace, <- app_assoc. apply events_since_app.
Qed.

Lemma ecw_config_spawned params s b mode e q r w :
  spawned (events_since w (Ecw.config tool params s b mode e q r w).2) =
  if config_aborts r s b then []
  else [child_of tool (configure_command params s b mode e) q (after_reset r b w)].
Proof.
  rewrite ecw_config_events. destruct (config_aborts r s b); [done|].
  cbv zeta. unfold reset_events.
  by destruct (r && isdir (fs w) b).
Qed.

(** The result of [config] follows the status of the child it spawned. *)
Lemma ecw_config_result params s b mode e q r w :
  (Ecw.config tool params s b mode e q r w).1 =
  if config_aborts r s b then Ok ()
  else outcome (tool (configure_command params s b mode e)
                     (fs (after_reset r b w))).2.
Proof.
  destruct (config_aborts r s b) eqn:Hab.
  - unfold config_aborts in Hab. apply andb_prop in Hab as [-> Hin].
    apply bool_decide_eq_true in Hin.
    by rewrite ecw_config_stops.
  - by rewrite ecw_config_proceeds, ecw_call_run.
Qed.

(** A reset that is allowed and finds the build root removes it, echoes the
    command and runs it on what is left. *)
Lemma ecw_config_reset_run params s b mode e q w :
  b ∉ parents s →
  isdir (fs w) b = true →
  let fs1 := rmtree b (fs w) in
  let cmd := configure_command params s b mode e in
  Ecw.config tool params s b mode e q true w =
  (outcome (tool cmd fs1).2,
   mkWorld (tool cmd fs1).1
     (trace w ++ [EvRmtree b; EvEcho (echo_line cmd);
                  EvSpawn (mkChild cmd (if q then DevNull else Inherit)
                                   Inherit (tool cmd fs1).2)])).
Proof.
  intros Hnot Hdir. cbv zeta.
  rewrite ecw_config_proceeds, ecw_call_run.
  - unfold after_reset. rewrite Hdir. simpl. by rewrite <- app_assoc.
  - unfold config_aborts. by rewrite bool_decide_false.
Qed.

Lemma ecw_build_run target b w :
  Ecw.build tool target b w =
  Ecw.call tool
    (["cmake"; "--build"; Path_str b]
     ++ (if bool_decide (target = "all") then [] else ["-t"; target]))
    false w.
Proof.
  unfold Ecw.build. cbv zeta.
  destruct (decide (target = "all")) as [->|Hne].
  - by rewrite bool_decide_false, bool_decide_true by (done || by intros []).
  - by rewrite bool_decide_true, bool_decide_false.
Qed.

Lemma main_build_run target b w :
  Main.build tool target b w =
  Main.call tool
    (["cmake"; "--build"; Path_str b]
     ++ (if bool_decide (target = "all") then [] else ["-t"; target])) w.
Proof.
  unfold Main.build. cbv zeta.
  destruct (decide (target = "all")) as [->|Hne].
  - by rewrite bool_decide_false, bool_decide_true by (done || by intros []).
  - by rewrite bool_decide_true, bool_decide_false.
Qed.

End Runs.

(** Rewrites a run of [build], or of [config] of [main.py], to the world it
    leaves, and reads off the events that it added. *)
Ltac run_to_events :=
  rewrite ?ecw_build_run, ?main_build_run, ?main_config_run,
    ?ecw_call_run, ?main_call_run;
  simpl; rewrite ?events_since_app.

Lemma build_type_tokens_app l k :
  build_type_tokens (l ++ k) = build_type_tokens l ++ build_type_tokens k.
Proof. apply filter_app. Qed.

(** The synthesized tokens hold the build-type token of the mode and no
    other. *)
Lemma synthesized_build_type s b mode e :
  build_type_tokens (synthesized s b mode e) =
  match mode with
  | Some m => ["-DCMAKE_BUILD_TYPE=" +:+ mode_token m]
  | None => []
  end.
Proof.
  unfold build_type_tokens, synthesized.
  destruct (Path_str_slash s) as [rs ->], (Path_str_slash b) as [rb ->].
  destruct mode as [[]|], e; reflexivity.
Qed.

(** ** The examples of the spec, run *)

Example configure_release_export :
  trace (Ecw.config (tool_exiting 0) None ["repo"] ["repo"; "build"]
           (Some Ecw.release) true false false (mkWorld ∅ [])).2 =
  [EvEcho "> cmake -S /repo -B /repo/build -DCMAKE_BUILD_TYPE=Release -DCMAKE_EXPORT_COMPILE_COMMANDS=1";
   EvSpawn (mkChild ["cmake"; "-S"; "/repo"; "-B"; "/repo/build";
                     "-DCMAKE_BUILD_TYPE=Release";
                     "-DCMAKE_EXPORT_COMPILE_COMMANDS=1"] Inherit Inherit 0)].
Proof. reflexivity. Qed.

Example build_mytarget :
  trace (Ecw.build (tool_exiting 0) "mytarget" ["repo"; "build"]
           (mkWorld ∅ [])).2 =
  [EvEcho "> cmake --build /repo/build -t mytarget";
   EvSpawn (mkChild ["cmake"; "--build"; "/repo/build"; "-t"; "mytarget"]
                    Inherit Inherit 0)].
Proof. reflexivity. Qed.

Example parents_of_repo_src :
  parents ["repo"; "src"] = [["repo"]; []].
Proof. reflexivity. Qed.

(** With nothing on the command line the mode is [debug], not absent. *)
Example bare_config_run :
  commands_run repo_world
    (Ecw.app_config (tool_exiting 0) ["repo"] bare_args repo_world) =
  [mkChild ["cmake"; "-S"; "/repo"; "-B"; "/repo/build";
            "-DCMAKE_BUILD_TYPE=Debug"] Inherit Inherit 0].
Proof. vm_compute. reflexivity. Qed.

(** [main.py] drops the status of its child. *)
Example main_build_failing_child :
  Main.build (tool_exiting 2) "all" ["repo"; "build"] (mkWorld ∅ []) =
  (Ok (),
   mkWorld ∅ [EvEcho "> cmake --build /repo/build";
              EvSpawn (mkChild ["cmake"; "--build"; "/repo/build"]
                               Inherit Inherit 2)]).
Proof. reflexivity. Qed.

(** ** Properties *)

(** C1. When the build path is a proper ancestor of the source path,
    [config] with the reset flag leaves the filesystem as it is, removes no
    tree, spawns no child process, and all it does is to report the
    unsafe-reset error on the error stream. *)
Theorem unsafe_reset_is_inert tool params s b mode e q w :
  ancestor_of b s →
  let w' := (Ecw.config tool params s b mode e q true w).2 in
  fs w' = fs w
  ∧ removed (events_since w w') = []
  ∧ spawned (events_since w w') = []
  ∧ events_since w w' =
      [EvEchoErr "Error: Build root contains source root; cannot remove."].
Proof.
  intros Hanc%parents_ancestor. cbv zeta.
  rewrite ecw_config_stops by done. simpl.
  by rewrite events_since_app.
Qed.

(** [config -S /repo/src -B /repo -R]. *)
Lemma unsafe_reset_is_inert_witness :
  ancestor_of ["repo"] ["repo"; "src"]
  ∧ (let w' := (Ecw.config (tool_exiting 0) None ["repo"; "src"] ["repo"]
                  (Some Ecw.debug) false false true repo_world).2 in
     fs w' = fs repo_world
     ∧ removed (events_since repo_world w') = []
     ∧ spawned (events_since repo_world w') = []
     ∧ events_since repo_world w' =
         [EvEchoErr "Error: Build root contains source root; cannot remove."]).
Proof.
  assert (Hanc : ancestor_of ["repo"] ["repo"; "src"]) by (by exists ["src"]).
  split; [exact Hanc|].
  exact (unsafe_reset_is_inert (tool_exiting 0) None ["repo"; "src"] ["repo"]
           (Some Ecw.debug) false false repo_world Hanc).
Defined.

(** C2, counterexample. [config] with nothing else on the command line, run
    in [/repo], runs a command with the token [-DCMAKE_BUILD_TYPE=Debug]:
    the option's declared default is [BuildMode.debug]. *)
Lemma mode_absent_gets_debug_token : ¬ mode_absent_omits_build_type.
Proof.
  intros Hall.
  specialize (Hall (tool_exiting 0) ["repo"] bare_args repo_world
    (mkChild ["cmake"; "-S"; "/repo"; "-B"; "/repo/build";
              "-DCMAKE_BUILD_TYPE=Debug"] Inherit Inherit 0)
    "-DCMAKE_BUILD_TYPE=Debug" eq_refl).
  rewrite bare_config_run in Hall.
  discriminate Hall; set_solver.
Qed.

(** C2, amended. When the mode that reaches [config] is [None], [config]
    synthesizes no build-type token: the command is the synthesized tokens
    followed by the passthrough parameters, and its build-type tokens are
    those of the passthrough parameters. An invocation from the command line
    without [--mode] does not reach that case: the mode is the declared
    default [debug], so that whenever typer accepts the directories and the
    reset is not refused, the one command that is run holds the synthesized
    token [-DCMAKE_BUILD_TYPE=Debug], and besides it only the build-type
    tokens of the passthrough parameters. *)
Theorem mode_none_omits_build_type tool :
  (∀ params s b e q r w,
     argv <$> spawned (events_since w
                         (Ecw.config tool params s b None e q r w).2) =
       (if config_aborts r s b then []
        else [synthesized s b None e ++ default [] params])
     ∧ build_type_tokens (synthesized s b None e) = []
     ∧ build_type_tokens (synthesized s b None e ++ default [] params) =
         build_type_tokens (default [] params))
  ∧ (∀ cwd a w,
       Ecw.arg_mode a = None →
       let s := default cwd (Ecw.arg_source_dir a) in
       let b := default (cwd ++ ["build"]) (Ecw.arg_build_dir a) in
       let synth := synthesized s b (Some Ecw.debug) (Ecw.arg_export_cc a) in
       let cmd := synth ++ default [] (Ecw.arg_cmake_params a) in
       argv <$> commands_run w (Ecw.app_config tool cwd a w) =
         (if Ecw.source_dir_ok (fs w) s && Ecw.build_dir_ok (fs w) b
          then if config_aborts (Ecw.arg_reset a) s b then [] else [cmd]
          else [])
       ∧ build_type_tokens synth = ["-DCMAKE_BUILD_TYPE=Debug"]
       ∧ build_type_tokens cmd =
           "-DCMAKE_BUILD_TYPE=Debug"
           :: build_type_tokens (default [] (Ecw.arg_cmake_params a))).
Proof.
  split.
  - intros.
    rewrite ecw_config_spawned, build_type_tokens_app, synthesized_build_type.
    split; [|done]. by destruct (config_aborts r s b).
  - intros cwd a w Hmode. cbv zeta. unfold Ecw.app_config.
    rewrite Hmode, build_type_tokens_app, synthesized_build_type. simpl.
    split; [|done].
    destruct (Ecw.source_dir_ok _ _ && Ecw.build_dir_ok _ _); [|done].
    simpl. rewrite ecw_config_spawned.
    by destruct (config_aborts _ _ _).
Qed.

(** Nothing but [config] on the command line, in [/repo]. *)
Lemma mode_none_omits_build_type_witness :
  Ecw.arg_mode bare_args = None
  ∧ argv <$> commands_run repo_world
       (Ecw.app_config (tool_exiting 0) ["repo"] bare_args repo_world) =
      [["cmake"; "-S"; "/repo"; "-B"; "/repo/build";
        "-DCMAKE_BUILD_TYPE=Debug"]].
Proof.
  split; [reflexivity|].
  destruct (proj2 (mode_none_omits_build_type (tool_exiting 0))
              ["repo"] bare_args repo_world eq_refl) as [Hrun _].
  rewrite Hrun. vm_compute. reflexivity.
Defined.

(** The runner of [ecw.py], for [config] and for [build]: when the child that
    was spawned returns a code [n] other than 0, the invocation raises
    [typer.Exit(n)], and ends with exit status [n] when [n] is an exit status
    (below 256); when the child returns 0, the command function returns. *)
Theorem ecw_propagates_child_status tool :
  (∀ params s b mode e q r w c,
     c ∈ spawned (events_since w (Ecw.config tool params s b mode e q r w).2) →
     let res := (Ecw.config tool params s b mode e q r w).1 in
     (returncode c ≠ 0%Z →
      res = Exit (returncode c)
      ∧ ((0 ≤ returncode c < 256)%Z → exit_code res = returncode c))
     ∧ (returncode c = 0%Z → res = Ok ()))
  ∧ (∀ target b w c,
       c ∈ spawned (events_since w (Ecw.build tool target b w).2) →
       let res := (Ecw.build tool target b w).1 in
       (returncode c ≠ 0%Z →
        res = Exit (returncode c)
        ∧ ((0 ≤ returncode c < 256)%Z → exit_code res = returncode c))
       ∧ (returncode c = 0%Z → res = Ok ())).
Proof.
  split.
  - intros params s b mode e q r w c. cbv zeta.
    rewrite ecw_config_spawned, ecw_config_result.
    destruct (config_aborts r s b); [by intros ?%elem_of_nil|].
    intros ->%list_elem_of_singleton. apply outcome_cases.
  - intros target b w c. cbv zeta.
    rewrite ecw_build_run, ecw_call_run. simpl.
    rewrite events_since_app. intros ->%list_elem_of_singleton.
    apply outcome_cases.
Qed.

(** [build] on [/repo/build] with a child that ends with status 2. *)
Lemma ecw_build_failing_child :
  let w := mkWorld ∅ [] in
  let c := mkChild ["cmake"; "--build"; "/repo/build"] Inherit Inherit 2 in
  let res := (Ecw.build (tool_exiting 2) "all" ["repo"; "build"] w).1 in
  c ∈ spawned (events_since w
                 (Ecw.build (tool_exiting 2) "all" ["repo"; "build"] w).2)
  ∧ returncode c ≠ 0%Z
  ∧ res = Exit 2 ∧ exit_code res = 2%Z.
Proof.
  cbv zeta.
  assert (Hc : mkChild ["cmake"; "--build"; "/repo/build"] Inherit Inherit 2
               ∈ spawned (events_since (mkWorld ∅ [])
                   (Ecw.build (tool_exiting 2) "all" ["repo"; "build"]
                      (mkWorld ∅ [])).2)) by apply list_elem_of_here.
  assert (Hnz : (2 ≠ 0)%Z) by discriminate.
  split; [exact Hc|]. split; [exact Hnz|].
  destruct (proj1 (proj2 (ecw_propagates_child_status (tool_exiting 2))
                     "all" ["repo"; "build"] (mkWorld ∅ []) _ Hc) Hnz)
    as [Hres Hcode].
  split; [exact Hres|]. apply Hcode. simpl. lia.
Defined.

(** In [main.py], [call] drops what [subprocess.call] returns: [config] and
    [build] return whatever status the child ended with. *)
Lemma main_always_returns tool :
  (∀ params s b w, (Main.config tool params s b w).1 = Ok ())
  ∧ (∀ target b w, (Main.build tool target b w).1 = Ok ()).
Proof.
  split; intros.
  - by rewrite main_config_run, main_call_run.
  - by rewrite main_build_run, main_call_run.
Qed.

(** C3. [build] of [main.py] on [/repo/build] with a child that ends with
    status 2: the one child that is spawned returns 2, yet [build] returns
    and the invocation ends with exit code 0, where [build] of [ecw.py]
    raises [typer.Exit(2)] on the same input. *)
Theorem main_drops_child_status :
  let w := mkWorld ∅ [] in
  let run := Main.build (tool_exiting 2) "all" ["repo"; "build"] w in
  returncode <$> spawned (events_since w run.2) = [2%Z]
  ∧ run.1 = Ok ()
  ∧ exit_code run.1 = 0%Z
  ∧ (Ecw.build (tool_exiting 2) "all" ["repo"; "build"] w).1 = Exit 2.
Proof. cbv zeta. by rewrite main_build_failing_child. Qed.

(** [config -M s] with the passthrough parameter
    [-DCMAKE_BUILD_TYPE=Release]. *)
Example passthrough_build_type_run :
  spawned (events_since (mkWorld ∅ [])
             (Ecw.config (tool_exiting 0) (Some ["-DCMAKE_BUILD_TYPE=Release"])
                ["repo"] ["repo"; "build"] (Some Ecw.min_size_release)
                false false false (mkWorld ∅ [])).2) =
  [mkChild ["cmake"; "-S"; "/repo"; "-B"; "/repo/build";
            "-DCMAKE_BUILD_TYPE=MinSizeRel"; "-DCMAKE_BUILD_TYPE=Release"]
           Inherit Inherit 0].
Proof. reflexivity. Qed.

(** C4, counterexample. Passthrough parameters are appended as they are:
    [config -M s] with the passthrough parameter [-DCMAKE_BUILD_TYPE=Release]
    runs a command with two build-type tokens, that of the mode and the one
    passed through. *)
Lemma passthrough_adds_build_type_token : ¬ mode_gives_exactly_one_build_type.
Proof.
  intros Hall.
  specialize (Hall (tool_exiting 0) (Some ["-DCMAKE_BUILD_TYPE=Release"])
    ["repo"] ["repo"; "build"] Ecw.min_size_release false false false
    (mkWorld ∅ [])
    (mkChild ["cmake"; "-S"; "/repo"; "-B"; "/repo/build";
              "-DCMAKE_BUILD_TYPE=MinSizeRel"; "-DCMAKE_BUILD_TYPE=Release"]
             Inherit Inherit 0)).
  rewrite passthrough_build_type_run in Hall.
  discriminate Hall. apply list_elem_of_here.
Qed.

(** C4, amended. For each of the four build modes, [to_param] gives the token
    of the fixed mapping, and [config] with that mode runs a command whose
    synthesized tokens (all that comes before the passthrough parameters)
    hold exactly one build-type token, [-DCMAKE_BUILD_TYPE=] followed by the
    token of the mode. The build-type tokens of the whole command are this
    one followed by those of the passthrough parameters: exactly one when
    the passthrough parameters hold none. *)
Theorem mode_gives_one_build_type_token tool params s b m e q r w :
  (Ecw.to_param Ecw.debug = "Debug"
   ∧ Ecw.to_param Ecw.release = "Release"
   ∧ Ecw.to_param Ecw.release_with_debug = "RelWithDebInfo"
   ∧ Ecw.to_param Ecw.min_size_release = "MinSizeRel")
  ∧ argv <$> spawned (events_since w
                        (Ecw.config tool params s b (Some m) e q r w).2) =
      (if config_aborts r s b then []
       else [synthesized s b (Some m) e ++ default [] params])
  ∧ build_type_tokens (synthesized s b (Some m) e) =
      ["-DCMAKE_BUILD_TYPE=" +:+ Ecw.to_param m]
  ∧ build_type_tokens (synthesized s b (Some m) e ++ default [] params) =
      ("-DCMAKE_BUILD_TYPE=" +:+ Ecw.to_param m)
      :: build_type_tokens (default [] params).
Proof.
  split; [done|].
  rewrite ecw_config_spawned, build_type_tokens_app, synthesized_build_type,
    to_param_mode_token.
  split; [|done]. by destruct (config_aborts r s b).
Qed.

(** C5. When the build path is not an ancestor of the source path and is a
    directory, [config] with the reset flag first removes the build
    directory, then echoes and spawns the child: the child runs on a
    filesystem in which nothing is left at or underneath the build path. *)
Theorem reset_removes_build_dir_first (tool : Tool) params s b mode e
    (q : bool) w :
  ¬ ancestor_of b s →
  isdir (fs w) b = true →
  let fs1 := rmtree b (fs w) in
  let cmd := configure_command params s b mode e in
  let child := mkChild cmd (if q then DevNull else Inherit) Inherit
                       (tool cmd fs1).2 in
  Ecw.config tool params s b mode e q true w =
    (outcome (tool cmd fs1).2,
     mkWorld (tool cmd fs1).1
       (trace w ++ [EvRmtree b; EvEcho (echo_line cmd); EvSpawn child]))
  ∧ (∀ p : Path, b `prefix_of` p → fs1 !! p = None)
  ∧ (∀ p : Path, ¬ b `prefix_of` p → fs1 !! p = fs w !! p).
Proof.
  intros Hnot Hdir. cbv zeta. split; [|split].
  - apply ecw_config_reset_run; [|done]. by rewrite parents_ancestor.
  - intros p. apply rmtree_under.
  - intros p. apply rmtree_outside.
Qed.

(** [config -S /repo -B /repo/build -M r -R] over an earlier build. *)
Lemma reset_removes_build_dir_first_witness :
  ¬ ancestor_of ["repo"; "build"] ["repo"]
  ∧ isdir repo_fs ["repo"; "build"] = true
  ∧ events_since repo_world
      (Ecw.config (tool_exiting 0) None ["repo"] ["repo"; "build"]
         (Some Ecw.release) false false true repo_world).2 =
    [EvRmtree ["repo"; "build"];
     EvEcho "> cmake -S /repo -B /repo/build -DCMAKE_BUILD_TYPE=Release";
     EvSpawn (mkChild ["cmake"; "-S"; "/repo"; "-B"; "/repo/build";
                       "-DCMAKE_BUILD_TYPE=Release"] Inherit Inherit 0)]
  ∧ rmtree ["repo"; "build"] repo_fs !! ["repo"; "build"; "CMakeCache.txt"]
    = None.
Proof.
  assert (Hnot : ¬ ancestor_of ["repo"; "build"] ["repo"]).
  { intros (rest & _ & Heq). discriminate Heq. }
  assert (Hdir : isdir (fs repo_world) ["repo"; "build"] = true)
    by (vm_compute; reflexivity).
  destruct (reset_removes_build_dir_first (tool_exiting 0) None ["repo"]
              ["repo"; "build"] (Some Ecw.release) false false repo_world
              Hnot Hdir) as (Hrun & Hgone & _).
  split; [exact Hnot|]. split; [exact Hdir|]. split.
  - rewrite Hrun. apply events_since_app.
  - apply Hgone. by exists ["CMakeCache.txt"].
Defined.

(** C6. [build] with the target [all] runs the build verb on the build path
    with no target-selection token; with any other target [X] it runs the
    same command followed by the one pair [-t], [X]. Both scripts agree. *)
Theorem build_target_selection tool b w :
  (argv <$> spawned (events_since w (Ecw.build tool "all" b w).2) =
     [["cmake"; "--build"; Path_str b]]
   ∧ argv <$> spawned (events_since w (Main.build tool "all" b w).2) =
     [["cmake"; "--build"; Path_str b]]
   ∧ "-t" ∉ ["cmake"; "--build"; Path_str b])
  ∧ (∀ X : string,
       X ≠ "all" →
       argv <$> spawned (events_since w (Ecw.build tool X b w).2) =
         [["cmake"; "--build"; Path_str b; "-t"; X]]
       ∧ argv <$> spawned (events_since w (Main.build tool X b w).2) =
         [["cmake"; "--build"; Path_str b; "-t"; X]]).
Proof.
  split; [split; [|split]|].
  - by run_to_events.
  - by run_to_events.
  - destruct (Path_str_slash b) as [rest ->].
    rewrite !not_elem_of_cons. repeat split; try done. apply not_elem_of_nil.
  - intros X HX. split; run_to_events; by rewrite bool_decide_false.
Qed.

(** [build mytarget -B /repo/build]. *)
Lemma build_target_selection_witness :
  "mytarget" ≠ "all"
  ∧ argv <$> spawned (events_since (mkWorld ∅ [])
      (Ecw.build (tool_exiting 0) "mytarget" ["repo"; "build"]
         (mkWorld ∅ [])).2) =
    [["cmake"; "--build"; "/repo/build"; "-t"; "mytarget"]].
Proof.
  assert (Hne : "mytarget" ≠ "all") by discriminate.
  split; [exact Hne|].
  exact (proj1 (proj2 (build_target_selection (tool_exiting 0)
                         ["repo"; "build"] (mkWorld ∅ [])) "mytarget" Hne)).
Defined.

(** C7. A [config] that goes ahead runs one command: the configure verb with
    the source and build paths, then the build-type token if a mode is
    given, then the export-compile-commands token if requested, then the
    passthrough parameters as they were given. [config] of [main.py], which
    has neither mode nor export flag, runs the verb with the paths followed
    by the passthrough parameters. *)
Theorem configure_command_order tool params s b mode e q r w :
  argv <$> spawned (events_since w
                      (Ecw.config tool params s b mode e q r w).2) =
    (if config_aborts r s b then []
     else [["cmake"; "-S"; Path_str s; "-B"; Path_str b]
           ++ match mode with
              | Some m => ["-DCMAKE_BUILD_TYPE=" +:+ mode_token m]
              | None => []
              end
           ++ (if e then ["-DCMAKE_EXPORT_COMPILE_COMMANDS=1"] else [])
           ++ default [] params])
  ∧ argv <$> spawned (events_since w (Main.config tool params s b w).2) =
      [["cmake"; "-S"; Path_str s; "-B"; Path_str b] ++ default [] params].
Proof.
  split.
  - rewrite ecw_config_spawned. destruct (config_aborts r s b); [done|].
    simpl. unfold configure_command, synthesized.
    by rewrite <- !app_assoc.
  - by run_to_events.
Qed.

(** On the code the sentence of the spec fails:
    [config -B /repo -S /repo/src -R] ends with exit status 0. *)
Lemma unsafe_reset_exit_code_zero : ¬ unsafe_reset_exits_nonzero.
Proof.
  intros Hall.
  apply (Hall (tool_exiting 0) None ["repo"; "src"] ["repo"]
           (Some Ecw.debug) false false repo_world).
  - by exists ["src"].
  - reflexivity.
Qed.

(** What [config] does when the reset-safety check fails, for every input:
    it prints the error on the error stream, runs no command, and the command
    function returns, so that no exit is raised and the exit status is 0. *)
Theorem unsafe_reset_returns tool params s b mode e q w :
  ancestor_of b s →
  let run := Ecw.config tool params s b mode e q true w in
  run.1 = Ok ()
  ∧ exit_code run.1 = 0%Z
  ∧ spawned (events_since w run.2) = []
  ∧ events_since w run.2 =
      [EvEchoErr "Error: Build root contains source root; cannot remove."].
Proof.
  intros Hanc%parents_ancestor. cbv zeta.
  rewrite ecw_config_stops by done. simpl.
  by rewrite events_since_app.
Qed.

(** [config -S /repo/src -B /repo -R], whatever the tool would return. *)
Lemma unsafe_reset_returns_witness :
  ancestor_of ["repo"] ["repo"; "src"]
  ∧ exit_code (Ecw.config (tool_exiting 2) None ["repo"; "src"] ["repo"]
                 (Some Ecw.debug) false false true repo_world).1 = 0%Z.
Proof.
  assert (Hanc : ancestor_of ["repo"] ["repo"; "src"]) by (by exists ["src"]).
  split; [exact Hanc|].
  exact (proj1 (proj2 (unsafe_reset_returns (tool_exiting 2) None
                         ["repo"; "src"] ["repo"] (Some Ecw.debug) false false
                         repo_world Hanc))).
Defined.

(** C8. [config -B /repo -S /repo/src -R]: the reset-safety check fails, the
    error goes to the error stream and no command is run, yet the command
    function returns and the invocation ends with exit status 0. The other
    failure path of the script does end with a failure status: the same
    [config] without [-R], with a child that returns 2, raises
    [typer.Exit(2)]. *)
Theorem unsafe_reset_ends_with_zero :
  let refused := Ecw.config (tool_exiting 2) None ["repo"; "src"] ["repo"]
                   (Some Ecw.debug) false false true repo_world in
  let failed := Ecw.config (tool_exiting 2) None ["repo"; "src"] ["repo"]
                  (Some Ecw.debug) false false false repo_world in
  events_since repo_world refused.2 =
    [EvEchoErr "Error: Build root contains source root; cannot remove."]
  ∧ refused.1 = Ok ()
  ∧ exit_code refused.1 = 0%Z
  ∧ failed.1 = Exit 2
  ∧ exit_code failed.1 = 2%Z.
Proof.
  cbv zeta.
  assert (Hanc : ["repo"] ∈ parents ["repo"; "src"])
    by (apply parents_ancestor; by exists ["src"]).
  rewrite ecw_config_stops by done.
  rewrite ecw_config_proceeds, ecw_call_run by done.
  cbn [fst snd]. by rewrite events_since_app.
Qed.

(** C9. Every child of a [config] with the quiet flag has its standard output
    on the discard sink and its standard error left alone; without the flag
    both streams are left alone. [build] takes no quiet flag and leaves both
    streams of its child alone. *)
Theorem quiet_discards_stdout_only tool :
  (∀ params s b mode e r w,
     (λ c, (stdout c, stderr c)) <$>
       spawned (events_since w
                  (Ecw.config tool params s b mode e true r w).2) =
     if config_aborts r s b then [] else [(DevNull, Inherit)])
  ∧ (∀ params s b mode e r w,
       (λ c, (stdout c, stderr c)) <$>
         spawned (events_since w
                    (Ecw.config tool params s b mode e false r w).2) =
       if config_aborts r s b then [] else [(Inherit, Inherit)])
  ∧ (∀ target b w,
       (λ c, (stdout c, stderr c)) <$>
         spawned (events_since w (Ecw.build tool target b w).2) =
       [(Inherit, Inherit)]).
Proof.
  split; [|split].
  - intros. rewrite ecw_config_spawned. by destruct (config_aborts r s b).
  - intros. rewrite ecw_config_spawned. by destruct (config_aborts r s b).
  - intros. by run_to_events.
Qed.

(** C10. When the build path is the source path, the guard of the reset does
    not fire, since a path is not among its own parents: with the reset flag
    and the source root a directory, [config] removes the source root with
    all that is underneath it, and then echoes and runs the command. *)
Theorem reset_with_build_equal_to_source (tool : Tool) params s mode e
    (q : bool) w :
  isdir (fs w) s = true →
  (s ∉ parents s)
  ∧ config_aborts true s s = false
  ∧ (let fs1 := rmtree s (fs w) in
     let cmd := configure_command params s s mode e in
     let child := mkChild cmd (if q then DevNull else Inherit) Inherit
                          (tool cmd fs1).2 in
     Ecw.config tool params s s mode e q true w =
       (outcome (tool cmd fs1).2,
        mkWorld (tool cmd fs1).1
          (trace w ++ [EvRmtree s; EvEcho (echo_line cmd); EvSpawn child]))
     ∧ fs1 !! s = None
     ∧ (∀ p : Path, s `prefix_of` p → fs1 !! p = None)).
Proof.
  intros Hdir. pose proof (not_own_parent s) as Hnot.
  split; [done|]. split.
  { unfold config_aborts. by rewrite bool_decide_false. }
  cbv zeta. split; [|split].
  - by apply ecw_config_reset_run.
  - by apply rmtree_under.
  - intros p. apply rmtree_under.
Qed.

(** [config -S /repo/src -B /repo/src -R]: the sources are removed. *)
Lemma reset_with_build_equal_to_source_witness :
  isdir repo_fs ["repo"; "src"] = true
  ∧ events_since repo_world
      (Ecw.config (tool_exiting 0) None ["repo"; "src"] ["repo"; "src"]
         (Some Ecw.debug) false false true repo_world).2 =
    [EvRmtree ["repo"; "src"];
     EvEcho "> cmake -S /repo/src -B /repo/src -DCMAKE_BUILD_TYPE=Debug";
     EvSpawn (mkChild ["cmake"; "-S"; "/repo/src"; "-B"; "/repo/src";
                       "-DCMAKE_BUILD_TYPE=Debug"] Inherit Inherit 0)]
  ∧ rmtree ["repo"; "src"] repo_fs !! ["repo"; "src"; "main.c"] = None.
Proof.
  assert (Hdir : isdir (fs repo_world) ["repo"; "src"] = true)
    by (vm_compute; reflexivity).
  destruct (reset_with_build_equal_to_source (tool_exiting 0) None
              ["repo"; "src"] (Some Ecw.debug) false false repo_world Hdir)
    as (_ & _ & Hrun & _ & Hgone).
  split; [exact Hdir|]. split.
  - rewrite Hrun. apply events_since_app.
  - apply Hgone. by exists ["main.c"].
Defined.

(** ** Further properties of the two scripts *)

(** X1. The four members of [BuildMode] have four different values, so that
    [==] holds between two members only when they are the same member; every
    member is true in a condition; and [to_param] gives different members
    different build types. *)
Theorem build_mode_tokens_distinct (a b : Ecw.BuildMode) :
  (Ecw.BuildMode_eqb a b = true ↔ a = b)
  ∧ Ecw.truthy (Some a) = true
  ∧ (Ecw.to_param a = Ecw.to_param b ↔ a = b).
Proof.
  split; [|split].
  - destruct a, b; split; (done || discriminate).
  - by destruct a.
  - destruct a, b; split; (done || discriminate).
Qed.

Lemma concat_space_last (l : list string) (x y : string) :
  String.concat " " (l ++ [x +:+ " " +:+ y]) = String.concat " " (l ++ [x; y]).
Proof.
  induction l as [|a l IH]; [done|].
  change ((a :: l) ++ [x +:+ " " +:+ y]) with (a :: (l ++ [x +:+ " " +:+ y])).
  change ((a :: l) ++ [x; y]) with (a :: (l ++ [x; y])).
  destruct l as [|a' l]; [done|].
  simpl in *. by rewrite IH.
Qed.

(** X2. Whatever [call] spawns has been echoed just before: in every
    operation of either script, each child in the trace comes directly after
    the line ["> "] followed by its own arguments joined by single spaces. *)
Theorem spawn_follows_its_echo tool w c :
  (∀ params s b mode e q r,
     let ev := events_since w (Ecw.config tool params s b mode e q r w).2 in
     c ∈ spawned ev →
     ∃ pre, ev = pre ++ [EvEcho ("> " +:+ String.concat " " (argv c)); EvSpawn c])
  ∧ (∀ target b,
       let ev := events_since w (Ecw.build tool target b w).2 in
       c ∈ spawned ev →
       ∃ pre, ev = pre ++ [EvEcho ("> " +:+ String.concat " " (argv c)); EvSpawn c])
  ∧ (∀ params s b,
       let ev := events_since w (Main.config tool params s b w).2 in
       c ∈ spawned ev →
       ∃ pre, ev = pre ++ [EvEcho ("> " +:+ String.concat " " (argv c)); EvSpawn c])
  ∧ (∀ target b,
       let ev := events_since w (Main.build tool target b w).2 in
       c ∈ spawned ev →
       ∃ pre, ev = pre ++ [EvEcho ("> " +:+ String.concat " " (argv c)); EvSpawn c]).
Proof.
  split; [|split; [|split]].
  - intros params s b mode e q r. cbv zeta.
    rewrite ecw_config_spawned, ecw_config_events.
    destruct (config_aborts r s b); [by intros ?%elem_of_nil|].
    intros ->%list_elem_of_singleton. by eexists.
  - intros target b. cbv zeta. run_to_events.
    intros ->%list_elem_of_singleton. by exists [].
  - intros params s b. cbv zeta. run_to_events.
    intros ->%list_elem_of_singleton. by exists [].
  - intros target b. cbv zeta. run_to_events.
    intros ->%list_elem_of_singleton. by exists [].
Qed.

(** [build] on [/repo/build]: the child comes after its echo. *)
Lemma spawn_follows_its_echo_witness :
  let w := mkWorld ∅ [] in
  let c := mkChild ["cmake"; "--build"; "/repo/build"] Inherit Inherit 0 in
  ∃ pre,
    events_since w (Ecw.build (tool_exiting 0) "all" ["repo"; "build"] w).2 =
    pre ++ [EvEcho "> cmake --build /repo/build"; EvSpawn c].
Proof.
  cbv zeta.
  exact (proj1 (proj2 (spawn_follows_its_echo (tool_exiting 0) (mkWorld ∅ [])
                         (mkChild ["cmake"; "--build"; "/repo/build"]
                                  Inherit Inherit 0)))
           "all" ["repo"; "build"] (list_elem_of_here _ _)).
Defined.

(** X3. The echo does not quote: a command whose last argument holds a space
    is echoed as the same line as the command with that argument split in
    two, although the two commands that are run differ. *)
Theorem echo_does_not_quote tool (l : list string) (x y : string) q w :
  let one := events_since w (Ecw.call tool (l ++ [x +:+ " " +:+ y]) q w).2 in
  let two := events_since w (Ecw.call tool (l ++ [x; y]) q w).2 in
  echoed one = echoed two
  ∧ argv <$> spawned one ≠ argv <$> spawned two.
Proof.
  cbv zeta. rewrite !ecw_call_run. simpl. rewrite !events_since_app. simpl.
  split.
  - unfold echo_line. by rewrite concat_space_last.
  - intros Heq. injection Heq as Heq. apply (f_equal length) in Heq.
    rewrite !length_app in Heq. simpl in Heq. lia.
Qed.

(** X4. An empty list of passthrough parameters is no list: [config] does the
    same with [[]] as with [None], in both scripts. *)
Theorem empty_params_same_as_none tool s b mode e q r w :
  Ecw.config tool (Some []) s b mode e q r w =
    Ecw.config tool None s b mode e q r w
  ∧ Main.config tool (Some []) s b w = Main.config tool None s b w.
Proof.
  split.
  - destruct (config_aborts r s b) eqn:Hab.
    + unfold config_aborts in Hab. apply andb_prop in Hab as [-> Hin].
      apply bool_decide_eq_true in Hin. by rewrite !ecw_config_stops.
    + by rewrite !ecw_config_proceeds.
  - by rewrite !main_config_run.
Qed.

(** X5. Passthrough parameters and targets cannot displace the fixed tokens:
    every command that [config] runs starts with [cmake -S <source> -B
    <build>], and every command that [build] runs starts with [cmake --build
    <build>], in both scripts. *)
Theorem fixed_tokens_come_first tool params s b mode e q r target w :
  (take 5 ∘ argv) <$>
     spawned (events_since w (Ecw.config tool params s b mode e q r w).2) =
   (if config_aborts r s b then []
    else [["cmake"; "-S"; Path_str s; "-B"; Path_str b]])
  ∧ (take 5 ∘ argv) <$>
      spawned (events_since w (Main.config tool params s b w).2) =
    [["cmake"; "-S"; Path_str s; "-B"; Path_str b]]
  ∧ (take 3 ∘ argv) <$>
      spawned (events_since w (Ecw.build tool target b w).2) =
    [["cmake"; "--build"; Path_str b]]
  ∧ (take 3 ∘ argv) <$>
      spawned (events_since w (Main.build tool target b w).2) =
    [["cmake"; "--build"; Path_str b]].
Proof.
  split; [|split; [|split]].
  - rewrite ecw_config_spawned. by destruct (config_aborts r s b).
  - by run_to_events.
  - by run_to_events.
  - by run_to_events.
Qed.

(** X6. [config] removes at most one tree, and only the build path itself:
    it does so exactly when the reset flag is set, the build path is not among
    the parents of the source path, and the build path is a directory.
    [build], and both operations of [main.py], never remove anything. *)
Theorem config_removes_only_build_dir tool params s b mode e q r target w :
  removed (events_since w (Ecw.config tool params s b mode e q r w).2) =
    (if r && negb (bool_decide (b ∈ parents s)) && isdir (fs w) b
     then [b] else [])
  ∧ removed (events_since w (Ecw.build tool target b w).2) = []
  ∧ removed (events_since w (Main.config tool params s b w).2) = []
  ∧ removed (events_since w (Main.build tool target b w).2) = [].
Proof.
  split; [|split; [|split]].
  - rewrite ecw_config_events. unfold config_aborts, reset_events.
    destruct r; simpl; [|done].
    destruct (bool_decide (b ∈ parents s)); simpl; [done|].
    by destruct (isdir (fs w) b).
  - by run_to_events.
  - by run_to_events.
  - by run_to_events.
Qed.

(** X7. A reset that goes ahead with a build path other than the source path
    spares the source root: the command runs in a world in which the source
    root, and every path that is not at or underneath the build path, is as
    it was. *)
Theorem reset_spares_the_source tool params s b mode e q r w :
  config_aborts r s b = false →
  b ≠ s →
  ∃ w1,
    Ecw.config tool params s b mode e q r w =
      Ecw.call tool (configure_command params s b mode e) q w1
    ∧ fs w1 !! s = fs w !! s
    ∧ (∀ p : Path, ¬ b `prefix_of` p → fs w1 !! p = fs w !! p).
Proof.
  intros Hgo Hne. exists (after_reset r b w).
  split; [by apply ecw_config_proceeds|].
  assert (Hframe : ∀ p : Path,
            ¬ b `prefix_of` p → fs (after_reset r b w) !! p = fs w !! p).
  { intros p Hp. unfold after_reset.
    destruct (r && isdir (fs w) b) eqn:Hr; [|done]. simpl.
    by apply rmtree_outside. }
  split; [|done]. destruct r; [|done].
  apply Hframe. intros [rest ->].
  destruct rest as [|x rest]; [by rewrite app_nil_r in Hne|].
  unfold config_aborts in Hgo. simpl in Hgo.
  apply bool_decide_eq_false in Hgo. apply Hgo, parents_ancestor.
  by exists (x :: rest).
Qed.

(** [config -S /repo -B /repo/build -R]: [/repo] and [/repo/src/main.c] stay. *)
Lemma reset_spares_the_source_witness :
  config_aborts true ["repo"] ["repo"; "build"] = false
  ∧ ["repo"; "build"] ≠ ["repo"]
  ∧ ∃ w1,
      Ecw.config (tool_exiting 0) None ["repo"] ["repo"; "build"]
        (Some Ecw.debug) false false true repo_world =
      Ecw.call (tool_exiting 0)
        (configure_command None ["repo"] ["repo"; "build"] (Some Ecw.debug) false)
        false w1
      ∧ fs w1 !! ["repo"] = fs repo_world !! ["repo"]
      ∧ (∀ p : Path, ¬ ["repo"; "build"] `prefix_of` p →
           fs w1 !! p = fs repo_world !! p).
Proof.
  assert (Hgo : config_aborts true ["repo"] ["repo"; "build"] = false)
    by reflexivity.
  assert (Hne : ["repo"; "build"] ≠ ["repo"]) by discriminate.
  split; [exact Hgo|]. split; [exact Hne|].
  exact (reset_spares_the_source (tool_exiting 0) None ["repo"]
           ["repo"; "build"] (Some Ecw.debug) false false true repo_world
           Hgo Hne).
Defined.

Lemma child_not_parent (p : Path) (x : string) : p ++ [x] ∉ parents p.
Proof.
  rewrite parents_ancestor. intros (rest & _ & Heq).
  apply (f_equal length) in Heq. rewrite !length_app in Heq. simpl in Heq. lia.
Qed.



(** X9. Where the tool can be spawned, the exit status of an invocation of
    [ecw.py] is the low eight bits of the return code of the child that it
    spawned (the code itself for a child that exits, 256 less the number of
    the signal for a child that a signal killed), and 0 when [config] spawned
    none because the reset was refused. *)
Theorem exit_code_is_the_childs tool params s b mode e q r target w :
  exit_code (Ecw.config tool params s b mode e q r w).1 =
    (default 0 (returncode <$>
                  head (spawned (events_since w
                          (Ecw.config tool params s b mode e q r w).2)))
     `mod` 256)%Z
  ∧ exit_code (Ecw.build tool target b w).1 =
      (default 0 (returncode <$>
                    head (spawned (events_since w
                                     (Ecw.build tool target b w).2)))
       `mod` 256)%Z.
Proof.
  split.
  - rewrite ecw_config_spawned, ecw_config_result.
    destruct (config_aborts r s b); [done|]. simpl. apply exit_code_outcome.
  - run_to_events. apply exit_code_outcome.
Qed.

(** X10. The two scripts do the same for what they share. [build] of
    [main.py] leaves the same world as [build] of [ecw.py], and [config] of
    [main.py] the same world as [config] of [ecw.py] without mode and flags;
    their results are the same exactly when the child returns 0. *)
Theorem scripts_agree tool params s b target w :
  (Main.build tool target b w).2 = (Ecw.build tool target b w).2
  ∧ (Main.config tool params s b w).2 =
    (Ecw.config tool params s b None false false false w).2
  ∧ ((Main.build tool target b w).1 = (Ecw.build tool target b w).1
     ↔ returncode <$> spawned (events_since w (Main.build tool target b w).2)
       = [0%Z])
  ∧ ((Main.config tool params s b w).1 =
       (Ecw.config tool params s b None false false false w).1
     ↔ returncode <$> spawned (events_since w (Main.config tool params s b w).2)
       = [0%Z]).
Proof.
  assert (Hout : ∀ n : Z, Ok () = outcome n ↔ [n] = [0%Z]).
  { intros n. unfold outcome. case_bool_decide; split; try done.
    - intros [=]. done.
    - destruct (decide (n = 0%Z)); congruence. }
  split; [|split; [|split]].
  - by rewrite main_build_run, ecw_build_run, main_call_run, ecw_call_run.
  - by rewrite main_config_run, ecw_config_proceeds, main_call_run,
      ecw_call_run.
  - rewrite main_build_run, ecw_build_run, main_call_run, ecw_call_run.
    simpl. rewrite events_since_app. simpl. apply Hout.
  - rewrite main_config_run, ecw_config_proceeds, main_call_run,
      ecw_call_run by done.
    simpl. rewrite events_since_app. simpl. apply Hout.
Qed.

(** X11. The quiet flag changes nothing but the standard output of the child:
    with or without it [config] echoes the same lines, reports the same
    errors, removes the same tree and runs the same command. *)
Theorem quiet_changes_only_stdout tool params s b mode e r w :
  let loud := events_since w (Ecw.config tool params s b mode e false r w).2 in
  let hush := events_since w (Ecw.config tool params s b mode e true r w).2 in
  echoed hush = echoed loud
  ∧ reported hush = reported loud
  ∧ removed hush = removed loud
  ∧ argv <$> spawned hush = argv <$> spawned loud
  ∧ stderr <$> spawned hush = stderr <$> spawned loud.
Proof.
  cbv zeta. rewrite !ecw_config_events.
  destruct (config_aborts r s b); [done|]. cbv zeta.
  unfold reset_events. by destruct (r && isdir (fs w) b).
Qed.

(** X12. [config] refuses only a reset whose build path is an ancestor of the
    source path. In every other case, also with the two directories swapped
    but no reset asked for, it reports nothing on the error stream, echoes one
    line and runs exactly one command. *)
Theorem config_goes_ahead tool params s b mode e q r w :
  ¬ (r = true ∧ ancestor_of b s) →
  let ev := events_since w (Ecw.config tool params s b mode e q r w).2 in
  reported ev = []
  ∧ length (echoed ev) = 1
  ∧ length (spawned ev) = 1.
Proof.
  intros Hok. cbv zeta. rewrite ecw_config_events.
  assert (config_aborts r s b = false) as ->.
  { unfold config_aborts. destruct r; [|done]. simpl.
    apply bool_decide_eq_false. rewrite parents_ancestor. naive_solver. }
  cbv zeta. unfold reset_events. by destruct (r && isdir (fs w) b).
Qed.

(** [config -S /repo/src -B /repo] without [-R]: the directories are swapped,
    yet nothing is to be removed and the command runs. *)
Lemma config_goes_ahead_witness :
  ¬ (false = true ∧ ancestor_of ["repo"] ["repo"; "src"])
  ∧ (let ev := events_since repo_world
                 (Ecw.config (tool_exiting 0) None ["repo"; "src"] ["repo"]
                    (Some Ecw.debug) false false false repo_world).2 in
     reported ev = [] ∧ length (echoed ev) = 1 ∧ length (spawned ev) = 1).
Proof.
  assert (Hok : ¬ (false = true ∧ ancestor_of ["repo"] ["repo"; "src"]))
    by (by intros [? _]).
  split; [exact Hok|].
  exact (config_goes_ahead (tool_exiting 0) None ["repo"; "src"] ["repo"]
           (Some Ecw.debug) false false false repo_world Hok).
Defined.


(** X14. A reset is not undone when the configuration fails. If the tool
    itself leaves the filesystem alone, then whatever status the child ends
    with, a reset that is not refused leaves the filesystem without the
    build directory when it was one, and untouched otherwise. *)
Theorem reset_is_not_undone (tool : Tool) params s b mode e q w :
  (∀ args f, (tool args f).1 = f) →
  b ∉ parents s →
  fs (Ecw.config tool params s b mode e q true w).2 =
    (if isdir (fs w) b then rmtree b (fs w) else fs w).
Proof.
  intros Hframe Hnot.
  rewrite ecw_config_proceeds, ecw_call_run.
  - simpl. rewrite Hframe. unfold after_reset. simpl.
    by destruct (isdir (fs w) b).
  - unfold config_aborts. by rewrite bool_decide_false.
Qed.

(** [config -S /repo -B /repo/build -R] with a child that ends with status 2:
    the earlier build is gone all the same. *)
Lemma reset_is_not_undone_witness :
  (∀ args f, (tool_exiting 2 args f).1 = f)
  ∧ (["repo"; "build"] ∉ parents ["repo"])
  ∧ fs (Ecw.config (tool_exiting 2) None ["repo"] ["repo"; "build"]
          (Some Ecw.debug) false false true repo_world).2 =
      (if isdir (fs repo_world) ["repo"; "build"]
       then rmtree ["repo"; "build"] (fs repo_world) else fs repo_world).
Proof.
  assert (Hframe : ∀ args f, (tool_exiting 2 args f).1 = f) by done.
  assert (Hnot : ["repo"; "build"] ∉ parents ["repo"])
    by apply (child_not_parent ["repo"] "build").
  split; [exact Hframe|]. split; [exact Hnot|].
  exact (reset_is_not_undone (tool_exiting 2) None ["repo"] ["repo"; "build"]
           (Some Ecw.debug) false false repo_world Hframe Hnot).
Defined.
